(** * ESL packaging script ([setup.py]): a shallow embedding

    The repository's only program is its [setup.py].  It is a straight-line
    script: two [with open(...)] blocks read [README.md] and [LICENSE] into
    the same module variable, and the call to [setuptools.setup] receives a
    record of keyword arguments, one of which is the value returned by
    [find_packages()].

    The script is embedded as a computation in a state-and-exception monad.
    The state holds the interpreter-side view of the run (table of open
    files, the module variable [long_description], the trace of calls that
    left the script), the working directory is a read-only tree, and the
    text codec of [open(path, "r")] is a parameter, as it is chosen by the
    locale in Python. *)

From Stdlib Require Import String Ascii List Bool Arith Lia.
From Stdlib Require Strings.Byte.
Import ListNotations.
Open Scope string_scope.
Open Scope list_scope.

(** ** The working directory *)

#[local] Unset Elimination Schemes.
Inductive node : Type :=
| File (bytes : list Byte.byte)
| Dir (entries : list (string * node)).
#[local] Set Elimination Schemes.

Definition directory := list (string * node).

(** Induction over a tree, with the hypothesis available for every entry of
    a directory. *)
Fixpoint node_ind (P : node -> Prop)
    (HFile : forall b, P (File b))
    (HDir : forall es, Forall (fun e => P (snd e)) es -> P (Dir es))
    (n : node) : P n :=
  match n with
  | File b => HFile b
  | Dir es =>
      HDir es
        ((fix entries_ind (l : list (string * node)) : Forall (fun e => P (snd e)) l :=
            match l with
            | [] => Forall_nil _
            | e :: l' => Forall_cons e (node_ind P HFile HDir (snd e)) (entries_ind l')
            end) es)
  end.

Fixpoint lookup (name : string) (d : directory) : option node :=
  match d with
  | [] => None
  | (n, x) :: d' => if String.eqb name n then Some x else lookup name d'
  end.

(** ** What the script hands to [setuptools.setup] *)

Record PackageDescriptor := mkDescriptor {
  name : string;
  version : string;
  author : string;
  author_email : string;
  description : string;
  long_description : string;
  long_description_content_type : string;
  url : string;
  packages : list string;
  install_requires : list string;
  license : string;
  classifiers : list string;
  python_requires : string
}.

(** ** Exceptions, events and interpreter state *)

Inductive exn : Type :=
| FileNotFoundError (path : string)
| IsADirectoryError (path : string)
| UnicodeDecodeError (path : string)
| ValueError (msg : string)
| NameError (var : string).

Inductive event : Type :=
| EvOpen (path : string) (fd : nat)
| EvOpenFailed (path : string)
| EvRead (fd : nat)
| EvReadFailed (fd : nat)
| EvClose (fd : nat)
| EvFindPackages (found : list string)
| EvSetup (d : PackageDescriptor).

Record open_file := mkOpenFile {
  of_path : string;
  of_bytes : list Byte.byte
}.

Record state := mkState {
  next_fd : nat;
  open_files : list (nat * open_file);
  var_long_description : option string;
  trace : list event
}.

Definition initial_state : state :=
  {| next_fd := 3; open_files := []; var_long_description := None; trace := [] |}.

(** ** The monad: state passing, with the state kept when an exception
    propagates (the trace and the open-file table of a failed run are what
    the error-path properties talk about). *)

Definition M (A : Type) : Type := state -> (exn + A) * state.

Definition ret {A} (a : A) : M A := fun s => (inr a, s).

Definition bind {A B} (c : M A) (k : A -> M B) : M B :=
  fun s =>
    match c s with
    | (inl e, s') => (inl e, s')
    | (inr a, s') => k a s'
    end.

Definition raise {A} (e : exn) : M A := fun s => (inl e, s).

Definition emit (ev : event) : M unit :=
  fun s =>
    (inr tt, {| next_fd := next_fd s; open_files := open_files s;
                var_long_description := var_long_description s;
                trace := trace s ++ [ev] |}).

(** [finally c cleanup] runs [cleanup] whether [c] returned or raised, and
    then lets the outcome of [c] through: the exit half of a [with] block. *)
Definition finally {A} (c : M A) (cleanup : M unit) : M A :=
  fun s =>
    match c s with
    | (r, s') =>
        match cleanup s' with
        | (inl e, s'') => (inl e, s'')
        | (inr _, s'') => (r, s'')
        end
    end.

Declare Scope py_scope.
Delimit Scope py_scope with py.
Notation "x <- c ;; k" := (bind c (fun x => k))
  (at level 100, c at next level, right associativity) : py_scope.
Notation "c ;; k" := (bind c (fun _ => k))
  (at level 100, right associativity) : py_scope.
Open Scope py_scope.

(** ** File objects *)

Fixpoint remove_fd (fd : nat) (t : list (nat * open_file)) : list (nat * open_file) :=
  match t with
  | [] => []
  | (fd', f) :: t' => if Nat.eqb fd fd' then remove_fd fd t' else (fd', f) :: remove_fd fd t'
  end.

Fixpoint find_fd (fd : nat) (t : list (nat * open_file)) : option open_file :=
  match t with
  | [] => None
  | (fd', f) :: t' => if Nat.eqb fd fd' then Some f else find_fd fd t'
  end.

(** ** Package discovery

    [find_packages] is imported from setuptools; the script calls it with no
    argument and its code is not part of the repository. *)

(** Modelled from the spec: the file whose presence makes a directory an
    importable sub-package (the spec's "importable sub-package marker");
    for a Python package that is its [__init__.py]. *)
Definition package_marker : string := "__init__.py".

Definition has_marker (es : directory) : bool :=
  match lookup package_marker es with
  | Some (File _) => true
  | _ => false
  end.

(** Modelled from the spec: the recursive scan of one entry of the working
    directory, "scan the working directory recursively for importable
    sub-package markers and return the set of their dotted paths".  Every
    directory that holds a marker contributes its dotted path, in the order
    of the listing. *)
Fixpoint scan (dotted : string) (n : node) : list string :=
  match n with
  | File _ => []
  | Dir es =>
      (if has_marker es then [dotted] else []) ++
      (fix scan_entries (l : list (string * node)) : list string :=
         match l with
         | [] => []
         | (nm, x) :: l' => scan (dotted ++ "." ++ nm) x ++ scan_entries l'
         end) es
  end.

(** Modelled from the spec: [find_packages()], the scan of every entry of
    the working directory; it "produces an empty result (not an error) if
    none are found", so it is a total function to a list. *)
Fixpoint find_packages (wd : directory) : list string :=
  match wd with
  | [] => []
  | (nm, x) :: wd' => scan nm x ++ find_packages wd'
  end.

(** The keyword arguments of the [setup(...)] call.  All but two are
    literals of the script; [long_description] is the value of the module
    variable at the call and [packages] the value [find_packages()]
    returned. *)
Definition setup_kwargs (v : string) (found : list string) : PackageDescriptor :=
  {| name := "esl";
     version := "0.0.1";
     author := "Arief Koesdwiady";
     author_email := "ariefbarkah@gmail.com";
     description := "This repo contains python implementation of the book Elements of Statistical Learning";
     long_description := v;
     long_description_content_type := "text/markdown";
     url := "https://github.com/abkoesdw/The-Elements-of-Statistical-Learning-Python-Codes.git";
     packages := found;
     install_requires :=
       [ "numpy>=1.19.0";
         "matplotlib>=3.2.2";
         "scipy>=1.5.1";
         "tqdm>=4.47.0";
         "flake8>=3.8.3";
         "black>=19.10b0";
         "scikit-learn>=0.23.1";
         "pandas==1.1.0" ];
     license := "MIT License";
     classifiers :=
       [ "Programming Language :: Python :: 3";
         "Operating System :: OS Independent" ];
     python_requires := ">=3" |}.

Section Script.

(** The codec of text mode, and the directory the script is run in. *)
Variable decode : list Byte.byte -> option string.
Variable wd : directory.

(** [open(path, "r")]: the handle is acquired only when the path names a
    regular file. *)
Definition open (path : string) : M nat :=
  fun s =>
    match lookup path wd with
    | None =>
        (inl (FileNotFoundError path),
         {| next_fd := next_fd s; open_files := open_files s;
            var_long_description := var_long_description s;
            trace := trace s ++ [EvOpenFailed path] |})
    | Some (Dir _) =>
        (inl (IsADirectoryError path),
         {| next_fd := next_fd s; open_files := open_files s;
            var_long_description := var_long_description s;
            trace := trace s ++ [EvOpenFailed path] |})
    | Some (File b) =>
        (inr (next_fd s),
         {| next_fd := S (next_fd s);
            open_files := (next_fd s, mkOpenFile path b) :: open_files s;
            var_long_description := var_long_description s;
            trace := trace s ++ [EvOpen path (next_fd s)] |})
    end.

(** [fh.read()] *)
Definition read (fh : nat) : M string :=
  fun s =>
    match find_fd fh (open_files s) with
    | None => (inl (ValueError "I/O operation on closed file."), s)
    | Some f =>
        match decode (of_bytes f) with
        | Some text =>
            (inr text,
             {| next_fd := next_fd s; open_files := open_files s;
                var_long_description := var_long_description s;
                trace := trace s ++ [EvRead fh] |})
        | None =>
            (inl (UnicodeDecodeError (of_path f)),
             {| next_fd := next_fd s; open_files := open_files s;
                var_long_description := var_long_description s;
                trace := trace s ++ [EvReadFailed fh] |})
        end
    end.

(** [fh.close()], as called by the file object's [__exit__]. *)
Definition close (fh : nat) : M unit :=
  fun s =>
    (inr tt,
     {| next_fd := next_fd s; open_files := remove_fd fh (open_files s);
        var_long_description := var_long_description s;
        trace := trace s ++ [EvClose fh] |}).

(** [with open(path, "r") as fh: body] *)
Definition with_open {A} (path : string) (body : nat -> M A) : M A :=
  fh <- open path ;;
  finally (body fh) (close fh).

(** [long_description = v] and the later use of the variable. *)
Definition assign_long_description (v : string) : M unit :=
  fun s =>
    (inr tt,
     {| next_fd := next_fd s; open_files := open_files s;
        var_long_description := Some v;
        trace := trace s |}).

Definition load_long_description : M string :=
  fun s =>
    match var_long_description s with
    | Some v => ret v s
    | None => raise (NameError "long_description") s
    end.

(** [find_packages()] and [setup(...)]: the two calls that leave the
    script.  What [setup] does with the record afterwards belongs to
    setuptools; the trace keeps the record it was given. *)
Definition call_find_packages : M (list string) :=
  fun s =>
    (inr (find_packages wd),
     {| next_fd := next_fd s; open_files := open_files s;
        var_long_description := var_long_description s;
        trace := trace s ++ [EvFindPackages (find_packages wd)] |}).

Definition setup (d : PackageDescriptor) : M unit := emit (EvSetup d).

(** The script, statement by statement. *)
Definition setup_py : M unit :=
  with_open "README.md" (fun fh =>
    text <- read fh ;; assign_long_description text) ;;
  with_open "LICENSE" (fun fh =>
    text <- read fh ;; assign_long_description text) ;;
  v <- load_long_description ;;
  found <- call_find_packages ;;
  setup (setup_kwargs v found).

Definition run : (exn + unit) * state := setup_py initial_state.

End Script.

(** ** Observations on a run *)

(** The record given to [setup], read off the trace. *)
Fixpoint handed_over (tr : list event) : option PackageDescriptor :=
  match tr with
  | [] => None
  | EvSetup d :: _ => Some d
  | _ :: tr' => handed_over tr'
  end.

(** The descriptor of a run that went through. *)
Definition construct (decode : list Byte.byte -> option string) (wd : directory)
  : exn + PackageDescriptor :=
  match run decode wd with
  | (inl e, _) => inl e
  | (inr _, s) =>
      match handed_over (trace s) with
      | Some d => inr d
      | None => inl (ValueError "setup was not called")
      end
  end.

(** A document is readable when its name leads to a regular file whose
    bytes the codec accepts; [contents] is then the text [read] returns. *)
Definition contents (decode : list Byte.byte -> option string) (wd : directory)
    (path : string) : option string :=
  match lookup path wd with
  | Some (File b) => decode b
  | _ => None
  end.

Definition absent (wd : directory) (path : string) : Prop := lookup path wd = None.

(** Every path an event of the trace tried to open. *)
Fixpoint opened_paths (tr : list event) : list string :=
  match tr with
  | [] => []
  | EvOpen p _ :: tr' => p :: opened_paths tr'
  | EvOpenFailed p :: tr' => p :: opened_paths tr'
  | _ :: tr' => opened_paths tr'
  end.

(** Every handle a trace acquires is read once and closed at once: the
    trace is a sequence of [open; read; close] blocks around the other
    events.  A read, a failed read or a close outside such a block makes
    the check fail. *)
Fixpoint well_scoped (tr : list event) : bool :=
  match tr with
  | [] => true
  | EvOpen _ fd :: EvRead fd1 :: EvClose fd2 :: tr' =>
      Nat.eqb fd fd1 && Nat.eqb fd fd2 && well_scoped tr'
  | EvOpen _ fd :: EvReadFailed fd1 :: EvClose fd2 :: tr' =>
      Nat.eqb fd fd1 && Nat.eqb fd fd2 && well_scoped tr'
  | EvOpen _ _ :: _ => false
  | EvRead _ :: _ => false
  | EvReadFailed _ :: _ => false
  | EvClose _ :: _ => false
  | _ :: tr' => well_scoped tr'
  end.

(** Handles acquired and not yet released at the end of a trace. *)
Fixpoint live_handles (live : list nat) (tr : list event) : list nat :=
  match tr with
  | [] => live
  | EvOpen _ fd :: tr' => live_handles (fd :: live) tr'
  | EvClose fd :: tr' => live_handles (List.remove Nat.eq_dec fd live) tr'
  | _ :: tr' => live_handles live tr'
  end.

(** ** Requirement specifiers

    The entries of [install_requires] are strings for setuptools to parse.
    This is the one-clause form of a requirement specifier: a project name,
    a comparison operator and a version. *)

Inductive comparator : Type :=
| CmpGe | CmpLe | CmpEq | CmpNe | CmpCompatible | CmpGt | CmpLt.

Record requirement := mkRequirement {
  req_name : string;
  req_op : comparator;
  req_version : string
}.

Definition in_range (lo hi : nat) (c : ascii) : bool :=
  Nat.leb lo (nat_of_ascii c) && Nat.leb (nat_of_ascii c) hi.

Definition is_alnum (c : ascii) : bool :=
  in_range 48 57 c || in_range 65 90 c || in_range 97 122 c.

Definition is_name_char (c : ascii) : bool :=
  is_alnum c || Ascii.eqb c "-" || Ascii.eqb c "_" || Ascii.eqb c ".".

Definition is_version_char (c : ascii) : bool :=
  is_alnum c || Ascii.eqb c "." || Ascii.eqb c "*" || Ascii.eqb c "+" ||
  Ascii.eqb c "!" || Ascii.eqb c "-" || Ascii.eqb c "_".

Fixpoint span (p : ascii -> bool) (s : string) : string * string :=
  match s with
  | EmptyString => (EmptyString, EmptyString)
  | String c s' =>
      if p c then let (a, b) := span p s' in (String c a, b)
      else (EmptyString, s)
  end.

Fixpoint all_chars (p : ascii -> bool) (s : string) : bool :=
  match s with
  | EmptyString => true
  | String c s' => p c && all_chars p s'
  end.

Definition parse_comparator (s : string) : option (comparator * string) :=
  match s with
  | String ">" (String "=" r) => Some (CmpGe, r)
  | String "<" (String "=" r) => Some (CmpLe, r)
  | String "=" (String "=" r) => Some (CmpEq, r)
  | String "!" (String "=" r) => Some (CmpNe, r)
  | String "~" (String "=" r) => Some (CmpCompatible, r)
  | String ">" r => Some (CmpGt, r)
  | String "<" r => Some (CmpLt, r)
  | _ => None
  end.

Definition parse_requirement (s : string) : option requirement :=
  let (nm, rest) := span is_name_char s in
  match nm, parse_comparator rest with
  | String _ _, Some (op, String c v) =>
      if all_chars is_version_char (String c v)
      then Some (mkRequirement nm op (String c v))
      else None
  | _, _ => None
  end.

Fixpoint parse_requirements (l : list string) : option (list requirement) :=
  match l with
  | [] => Some []
  | s :: l' =>
      match parse_requirement s, parse_requirements l' with
      | Some r, Some rs => Some (r :: rs)
      | _, _ => None
      end
  end.

Definition is_pinned (r : requirement) : bool :=
  match req_op r with CmpEq => true | _ => false end.

Definition is_lower_bound (r : requirement) : bool :=
  match req_op r with CmpGe => true | _ => false end.

(** ** Markers of sub-packages, counted file by file

    Independent of [find_packages]: every [__init__.py] regular file that
    sits in a directory below the working directory counts, at any depth. *)

Definition is_marker_entry (e : string * node) : bool :=
  match e with
  | (nm, File _) => String.eqb nm package_marker
  | (_, Dir _) => false
  end.

Fixpoint marker_files (n : node) : nat :=
  match n with
  | File _ => 0
  | Dir es =>
      length (filter is_marker_entry es) +
      (fix below (l : list (string * node)) : nat :=
         match l with
         | [] => 0
         | (_, x) :: l' => marker_files x + below l'
         end) es
  end.

Fixpoint sub_package_markers (wd : directory) : nat :=
  match wd with
  | [] => 0
  | (_, x) :: wd' => marker_files x + sub_package_markers wd'
  end.

(** ** Two checkouts that differ in the two documents only *)

Definition is_document (nm : string) : bool :=
  String.eqb nm "README.md" || String.eqb nm "LICENSE".

Definition blank_documents (wd : directory) : directory :=
  map (fun e : string * node =>
         match e with
         | (nm, File b) => if is_document nm then (nm, File []) else (nm, File b)
         | (nm, Dir es) => (nm, Dir es)
         end) wd.

(** ** A codec and some checkouts to run the script on *)

(** Strict 7-bit ASCII, the codec of the C locale. *)
Definition ascii_codec (bs : list Byte.byte) : option string :=
  if forallb (fun b => Nat.ltb (nat_of_ascii (ascii_of_byte b)) 128) bs
  then Some (string_of_list_byte bs)
  else None.

Definition text_file (s : string) : node := File (list_byte_of_string s).

Definition esl_tree : node :=
  Dir [ ("__init__.py", File []);
        ("chapter03", Dir [ ("__init__.py", File []); ("kfold.py", text_file "import numpy") ]);
        ("data", Dir [ ("prostate.csv", text_file "lcavol,lweight") ]) ].

Definition checkout : directory :=
  [ ("README.md", text_file "# The Elements of Statistical Learning");
    ("LICENSE", text_file "MIT License");
    ("setup.py", text_file "from setuptools import setup, find_packages");
    ("esl", esl_tree) ].

Definition checkout_other_readme : directory :=
  [ ("README.md", text_file "work in progress");
    ("LICENSE", text_file "MIT License");
    ("setup.py", text_file "from setuptools import setup, find_packages");
    ("esl", esl_tree) ].

Definition checkout_other_documents : directory :=
  [ ("README.md", text_file "work in progress");
    ("LICENSE", text_file "Apache License 2.0");
    ("setup.py", text_file "from setuptools import setup, find_packages");
    ("esl", esl_tree) ].

Definition checkout_with_extra_files : directory :=
  [ ("notes.txt", text_file "todo");
    ("esl", esl_tree);
    ("LICENSE", text_file "MIT License");
    ("README.md", text_file "# The Elements of Statistical Learning");
    ("docs", Dir [ ("index.md", text_file "ESL") ]) ].

Definition checkout_without_readme : directory :=
  [ ("LICENSE", text_file "MIT License"); ("esl", esl_tree) ].

Definition checkout_without_license : directory :=
  [ ("README.md", text_file "# The Elements of Statistical Learning"); ("esl", esl_tree) ].

Definition checkout_empty_license : directory :=
  [ ("README.md", text_file "# The Elements of Statistical Learning");
    ("LICENSE", File []);
    ("esl", esl_tree) ].

Definition checkout_without_packages : directory :=
  [ ("README.md", text_file "# The Elements of Statistical Learning");
    ("LICENSE", text_file "MIT License");
    ("__init__.py", File []);
    ("notebooks", Dir [ ("chapter03.ipynb", text_file "{}") ]) ].

Definition checkout_binary_license : directory :=
  [ ("README.md", text_file "# The Elements of Statistical Learning");
    ("LICENSE", File [Byte.xff; Byte.xfe]);
    ("esl", esl_tree) ].

(** ** Further observations on traces and states *)

(** The calls that leave the script for setuptools. *)
Definition is_external_call (ev : event) : bool :=
  match ev with
  | EvFindPackages _ => true
  | EvSetup _ => true
  | _ => false
  end.

Definition external_calls (tr : list event) : list event :=
  filter is_external_call tr.

(** The largest number of handles held at one time along a trace. *)
Fixpoint peak_open (live : list nat) (tr : list event) : nat :=
  match tr with
  | [] => length live
  | EvOpen _ fd :: tr' => Nat.max (length live) (peak_open (fd :: live) tr')
  | EvClose fd :: tr' =>
      Nat.max (length live) (peak_open (List.remove Nat.eq_dec fd live) tr')
  | _ :: tr' => peak_open live tr'
  end.

(** The descriptor counter is ahead of every descriptor in the table. *)
Definition fds_fresh (s : state) : bool :=
  forallb (fun p : nat * open_file => Nat.ltb (fst p) (next_fd s)) (open_files s).

(** A state in the middle of some other work: a file is open, the variable
    is bound, events were recorded. *)
Definition busy_state : state :=
  {| next_fd := 7;
     open_files := [(5, mkOpenFile "setup.cfg" [])];
     var_long_description := Some "stale";
     trace := [EvOpen "setup.cfg" 5] |}.

Definition checkout_readme_directory : directory :=
  [ ("README.md", Dir [ ("index.md", text_file "# ESL") ]);
    ("LICENSE", text_file "MIT License");
    ("esl", esl_tree) ].

(** ** The seven ways a run can go, each with its result and final state *)

Inductive run_outcome (decode : list Byte.byte -> option string) (wd : directory)
  : (exn + unit) * state -> Prop :=
| readme_missing :
    lookup "README.md" wd = None ->
    run_outcome decode wd
      (inl (FileNotFoundError "README.md"),
       mkState 3 [] None [EvOpenFailed "README.md"])
| readme_directory es :
    lookup "README.md" wd = Some (Dir es) ->
    run_outcome decode wd
      (inl (IsADirectoryError "README.md"),
       mkState 3 [] None [EvOpenFailed "README.md"])
| readme_undecodable b :
    lookup "README.md" wd = Some (File b) -> decode b = None ->
    run_outcome decode wd
      (inl (UnicodeDecodeError "README.md"),
       mkState 4 [] None [EvOpen "README.md" 3; EvReadFailed 3; EvClose 3])
| license_missing readme :
    contents decode wd "README.md" = Some readme ->
    lookup "LICENSE" wd = None ->
    run_outcome decode wd
      (inl (FileNotFoundError "LICENSE"),
       mkState 4 [] (Some readme)
         [EvOpen "README.md" 3; EvRead 3; EvClose 3; EvOpenFailed "LICENSE"])
| license_directory readme es :
    contents decode wd "README.md" = Some readme ->
    lookup "LICENSE" wd = Some (Dir es) ->
    run_outcome decode wd
      (inl (IsADirectoryError "LICENSE"),
       mkState 4 [] (Some readme)
         [EvOpen "README.md" 3; EvRead 3; EvClose 3; EvOpenFailed "LICENSE"])
| license_undecodable readme b :
    contents decode wd "README.md" = Some readme ->
    lookup "LICENSE" wd = Some (File b) -> decode b = None ->
    run_outcome decode wd
      (inl (UnicodeDecodeError "LICENSE"),
       mkState 5 [] (Some readme)
         [EvOpen "README.md" 3; EvRead 3; EvClose 3;
          EvOpen "LICENSE" 4; EvReadFailed 4; EvClose 4])
| went_through readme text :
    contents decode wd "README.md" = Some readme ->
    contents decode wd "LICENSE" = Some text ->
    run_outcome decode wd
      (inr tt,
       mkState 5 [] (Some text)
         [EvOpen "README.md" 3; EvRead 3; EvClose 3;
          EvOpen "LICENSE" 4; EvRead 4; EvClose 4;
          EvFindPackages (find_packages wd);
          EvSetup (setup_kwargs text (find_packages wd))]).

(** * Properties *)

(** ** Every run of the script, case by case *)

(** Unfold the script down to the primitives and evaluate as far as the
    lookups allow. *)
Ltac run_script :=
  unfold run, ret, raise, setup_py, with_open, finally, bind, open, read, close,
    assign_long_description, load_long_description, call_find_packages,
    setup, emit, initial_state;
  cbn.

Ltac step_with H := rewrite H; cbn.

Lemma contents_inv decode wd path text :
  contents decode wd path = Some text ->
  exists b, lookup path wd = Some (File b) /\ decode b = Some text.
Proof.
  unfold contents. destruct (lookup path wd) as [[b | es] |]; try discriminate.
  intros H. exists b. split; [reflexivity | exact H].
Qed.

Lemma contents_absent decode wd path :
  absent wd path -> contents decode wd path = None.
Proof. unfold absent, contents. intros ->. reflexivity. Qed.

Lemma run_cases decode wd : run_outcome decode wd (run decode wd).
Proof.
  destruct (lookup "README.md" wd) as [[b | es] |] eqn:Hr.
  - destruct (decode b) as [readme |] eqn:Hb.
    + assert (Hreadme : contents decode wd "README.md" = Some readme)
        by (unfold contents; rewrite Hr; exact Hb).
      destruct (lookup "LICENSE" wd) as [[b' | es'] |] eqn:Hl.
      * destruct (decode b') as [text |] eqn:Hb'.
        -- assert (Htext : contents decode wd "LICENSE" = Some text)
             by (unfold contents; rewrite Hl; exact Hb').
           replace (run decode wd) with
             (inr tt : exn + unit,
              mkState 5 [] (Some text)
                [EvOpen "README.md" 3; EvRead 3; EvClose 3;
                 EvOpen "LICENSE" 4; EvRead 4; EvClose 4;
                 EvFindPackages (find_packages wd);
                 EvSetup (setup_kwargs text (find_packages wd))]).
           ++ now apply went_through with (readme := readme).
           ++ run_script. step_with Hr. step_with Hb. step_with Hl.
              step_with Hb'. reflexivity.
        -- replace (run decode wd) with
             (inl (UnicodeDecodeError "LICENSE") : exn + unit,
              mkState 5 [] (Some readme)
                [EvOpen "README.md" 3; EvRead 3; EvClose 3;
                 EvOpen "LICENSE" 4; EvReadFailed 4; EvClose 4]).
           ++ now apply license_undecodable with (b := b').
           ++ run_script. step_with Hr. step_with Hb. step_with Hl.
              step_with Hb'. reflexivity.
      * replace (run decode wd) with
          (inl (IsADirectoryError "LICENSE") : exn + unit,
           mkState 4 [] (Some readme)
             [EvOpen "README.md" 3; EvRead 3; EvClose 3; EvOpenFailed "LICENSE"]).
        -- now apply license_directory with (es := es').
        -- run_script. step_with Hr. step_with Hb. step_with Hl. reflexivity.
      * replace (run decode wd) with
          (inl (FileNotFoundError "LICENSE") : exn + unit,
           mkState 4 [] (Some readme)
             [EvOpen "README.md" 3; EvRead 3; EvClose 3; EvOpenFailed "LICENSE"]).
        -- now apply license_missing.
        -- run_script. step_with Hr. step_with Hb. step_with Hl. reflexivity.
    + replace (run decode wd) with
        (inl (UnicodeDecodeError "README.md") : exn + unit,
         mkState 4 [] None [EvOpen "README.md" 3; EvReadFailed 3; EvClose 3]).
      * now apply readme_undecodable with (b := b).
      * run_script. step_with Hr. step_with Hb. reflexivity.
  - replace (run decode wd) with
      (inl (IsADirectoryError "README.md") : exn + unit,
       mkState 3 [] None [EvOpenFailed "README.md"]).
    + now apply readme_directory with (es := es).
    + run_script. step_with Hr. reflexivity.
  - replace (run decode wd) with
      (inl (FileNotFoundError "README.md") : exn + unit,
       mkState 3 [] None [EvOpenFailed "README.md"]).
    + now apply readme_missing.
    + run_script. step_with Hr. reflexivity.
Qed.

Lemma run_went_through decode wd readme text :
  contents decode wd "README.md" = Some readme ->
  contents decode wd "LICENSE" = Some text ->
  run decode wd =
    (inr tt,
     mkState 5 [] (Some text)
       [EvOpen "README.md" 3; EvRead 3; EvClose 3;
        EvOpen "LICENSE" 4; EvRead 4; EvClose 4;
        EvFindPackages (find_packages wd);
        EvSetup (setup_kwargs text (find_packages wd))]).
Proof.
  intros Hreadme Htext.
  apply contents_inv in Hreadme as (b & Hr & Hb).
  apply contents_inv in Htext as (b' & Hl & Hb').
  run_script. step_with Hr. step_with Hb. step_with Hl. step_with Hb'.
  reflexivity.
Qed.

Lemma construct_went_through decode wd readme text :
  contents decode wd "README.md" = Some readme ->
  contents decode wd "LICENSE" = Some text ->
  construct decode wd = inr (setup_kwargs text (find_packages wd)).
Proof.
  intros Hreadme Htext. unfold construct.
  rewrite (run_went_through decode wd readme text Hreadme Htext).
  reflexivity.
Qed.

Lemma construct_inv decode wd d :
  construct decode wd = inr d ->
  exists readme text,
    contents decode wd "README.md" = Some readme /\
    contents decode wd "LICENSE" = Some text /\
    d = setup_kwargs text (find_packages wd).
Proof.
  unfold construct. intros H.
  pose proof (run_cases decode wd) as Hcase.
  inversion Hcase as
    [ Hr Heq | es Hr Heq | b Hr Hb Heq | readme Hr Hl Heq | readme es Hr Hl Heq
    | readme b Hr Hl Hb Heq | readme text Hr Hl Heq ];
    rewrite <- Heq in H; cbn in H; try discriminate.
  exists readme, text. repeat split; try assumption.
  now inversion H.
Qed.

(** ** The long description *)

(** C1: when the readme and the license are both readable, the descriptor's
    [long_description] is exactly the text of the license, and so is the
    module variable at the end of the run: the assignment from the readme is
    overwritten.  A second checkout with another readable readme and the
    same license text gives the same field. *)
Theorem long_description_is_license_text decode wd wd' readme readme' text :
  contents decode wd "README.md" = Some readme ->
  contents decode wd "LICENSE" = Some text ->
  contents decode wd' "README.md" = Some readme' ->
  contents decode wd' "LICENSE" = Some text ->
  exists d d',
    construct decode wd = inr d /\ construct decode wd' = inr d' /\
    long_description d = text /\ long_description d' = text /\
    var_long_description (snd (run decode wd)) = Some text.
Proof.
  intros Hreadme Htext Hreadme' Htext'.
  exists (setup_kwargs text (find_packages wd)),
         (setup_kwargs text (find_packages wd')).
  rewrite (construct_went_through decode wd readme text) by assumption.
  rewrite (construct_went_through decode wd' readme' text) by assumption.
  rewrite (run_went_through decode wd readme text) by assumption.
  repeat split.
Qed.

Lemma long_description_is_license_text_on_checkout :
  exists d d',
    construct ascii_codec checkout = inr d /\
    construct ascii_codec checkout_other_readme = inr d' /\
    long_description d = "MIT License" /\ long_description d' = "MIT License" /\
    var_long_description (snd (run ascii_codec checkout)) = Some "MIT License".
Proof.
  apply (long_description_is_license_text ascii_codec
           checkout checkout_other_readme
           "# The Elements of Statistical Learning" "work in progress"
           "MIT License");
    reflexivity.
Defined.

(** C2 as worded does not hold: an empty license file is readable, and the
    script then goes through with an empty [long_description]. *)
Lemma empty_license_gives_empty_long_description :
  contents ascii_codec checkout_empty_license "README.md"
    = Some "# The Elements of Statistical Learning" /\
  contents ascii_codec checkout_empty_license "LICENSE" = Some "" /\
  (exists d, construct ascii_codec checkout_empty_license = inr d /\
             long_description d = "") /\
  ~ (forall decode wd readme text,
       contents decode wd "README.md" = Some readme ->
       contents decode wd "LICENSE" = Some text ->
       exists d, construct decode wd = inr d /\ long_description d <> "").
Proof.
  split; [reflexivity |]. split; [reflexivity |]. split.
  - eexists. split; reflexivity.
  - intros H.
    destruct (H ascii_codec checkout_empty_license
                "# The Elements of Statistical Learning" ""
                eq_refl eq_refl) as (d & Hd & Hne).
    vm_compute in Hd. inversion Hd as [Hd']. subst d.
    apply Hne. reflexivity.
Qed.

(** C2, amended: when the readme is readable and the license is readable
    and not empty, the run goes through and [long_description] is a
    non-empty string. *)
Theorem construct_succeeds_when_documents_readable decode wd readme text :
  contents decode wd "README.md" = Some readme ->
  contents decode wd "LICENSE" = Some text ->
  text <> "" ->
  exists d,
    construct decode wd = inr d /\
    fst (run decode wd) = inr tt /\
    long_description d <> "".
Proof.
  intros Hreadme Htext Hne.
  exists (setup_kwargs text (find_packages wd)). repeat split.
  - now apply construct_went_through with (readme := readme).
  - now rewrite (run_went_through decode wd readme text).
  - exact Hne.
Qed.

Lemma construct_succeeds_on_checkout :
  exists d,
    construct ascii_codec checkout = inr d /\
    fst (run ascii_codec checkout) = inr tt /\
    long_description d <> "".
Proof.
  apply (construct_succeeds_when_documents_readable ascii_codec checkout
           "# The Elements of Statistical Learning" "MIT License");
    [reflexivity | reflexivity | discriminate].
Defined.

(** ** Failing runs *)

(** C3: without [README.md] the run ends in the missing-file error of the
    first [open], and that failed open is the whole trace: [LICENSE] is
    neither opened nor read, and nothing is handed to [setup]. *)
Theorem missing_readme_fails_before_license decode wd :
  absent wd "README.md" ->
  fst (run decode wd) = inl (FileNotFoundError "README.md") /\
  trace (snd (run decode wd)) = [EvOpenFailed "README.md"] /\
  ~ In "LICENSE" (opened_paths (trace (snd (run decode wd)))) /\
  construct decode wd = inl (FileNotFoundError "README.md").
Proof.
  unfold absent. intros Hr.
  assert (Hrun : run decode wd =
                 (inl (FileNotFoundError "README.md"),
                  mkState 3 [] None [EvOpenFailed "README.md"])).
  { run_script. step_with Hr. reflexivity. }
  unfold construct. rewrite Hrun. cbn. repeat split.
  intros [H | []]. discriminate H.
Qed.

Lemma missing_readme_on_checkout :
  fst (run ascii_codec checkout_without_readme) = inl (FileNotFoundError "README.md") /\
  trace (snd (run ascii_codec checkout_without_readme)) = [EvOpenFailed "README.md"] /\
  ~ In "LICENSE" (opened_paths (trace (snd (run ascii_codec checkout_without_readme)))) /\
  construct ascii_codec checkout_without_readme = inl (FileNotFoundError "README.md").
Proof.
  apply (missing_readme_fails_before_license ascii_codec checkout_without_readme).
  reflexivity.
Defined.

(** A run that ends in the missing-file error of [LICENSE] has opened, read
    and closed the readme before. *)
Lemma license_error_only_after_readme decode wd :
  fst (run decode wd) = inl (FileNotFoundError "LICENSE") ->
  exists readme,
    contents decode wd "README.md" = Some readme /\
    trace (snd (run decode wd)) =
      [EvOpen "README.md" 3; EvRead 3; EvClose 3; EvOpenFailed "LICENSE"].
Proof.
  intros Hfail.
  pose proof (run_cases decode wd) as Hcase.
  inversion Hcase as
    [ Hr Heq | es Hr Heq | b Hr Hb Heq | readme Hr Hl Heq | readme es Hr Hl Heq
    | readme b Hr Hl Hb Heq | readme text Hr Hl Heq ];
    rewrite <- Heq in Hfail; cbn in Hfail; try discriminate.
  exists readme. split; [assumption | reflexivity].
Qed.

(** C4: with a readable [README.md] and no [LICENSE], the run ends in the
    missing-file error of the second [open], after the readme was opened,
    read to the end and closed; the module variable holds the readme text at
    that point, and nothing is handed to [setup]. *)
Theorem missing_license_fails_after_readme_read decode wd readme :
  contents decode wd "README.md" = Some readme ->
  absent wd "LICENSE" ->
  fst (run decode wd) = inl (FileNotFoundError "LICENSE") /\
  trace (snd (run decode wd)) =
    [EvOpen "README.md" 3; EvRead 3; EvClose 3; EvOpenFailed "LICENSE"] /\
  var_long_description (snd (run decode wd)) = Some readme /\
  construct decode wd = inl (FileNotFoundError "LICENSE").
Proof.
  unfold absent. intros Hreadme Hl.
  apply contents_inv in Hreadme as (b & Hr & Hb).
  assert (Hrun : run decode wd =
                 (inl (FileNotFoundError "LICENSE"),
                  mkState 4 [] (Some readme)
                    [EvOpen "README.md" 3; EvRead 3; EvClose 3;
                     EvOpenFailed "LICENSE"])).
  { run_script. step_with Hr. step_with Hb. step_with Hl. reflexivity. }
  unfold construct. rewrite Hrun. cbn. repeat split.
Qed.

Lemma missing_license_on_checkout :
  fst (run ascii_codec checkout_without_license) = inl (FileNotFoundError "LICENSE") /\
  trace (snd (run ascii_codec checkout_without_license)) =
    [EvOpen "README.md" 3; EvRead 3; EvClose 3; EvOpenFailed "LICENSE"] /\
  var_long_description (snd (run ascii_codec checkout_without_license))
    = Some "# The Elements of Statistical Learning" /\
  construct ascii_codec checkout_without_license = inl (FileNotFoundError "LICENSE").
Proof.
  apply (missing_license_fails_after_readme_read ascii_codec
           checkout_without_license "# The Elements of Statistical Learning");
    reflexivity.
Defined.

(** ** Releasing file handles *)

Lemma remove_fd_not_open fd t : find_fd fd t = None -> remove_fd fd t = t.
Proof.
  induction t as [| [fd' f] t IH]; cbn; [reflexivity |].
  destruct (Nat.eqb fd fd'); [discriminate |].
  intros H. now rewrite IH.
Qed.

Lemma read_keeps_open_files decode fh s :
  open_files (snd (read decode fh s)) = open_files s.
Proof.
  unfold read. destruct (find_fd fh (open_files s)) as [f |]; [| reflexivity].
  destruct (decode (of_bytes f)); reflexivity.
Qed.

(** A [with open(...)] block gives back the table of open files it found,
    whether [open] fails, the body returns or the body raises, for every
    body that does not open or close files itself. *)
Lemma with_open_releases {A} wd path (body : nat -> M A) s :
  (forall fh s0, open_files (snd (body fh s0)) = open_files s0) ->
  find_fd (next_fd s) (open_files s) = None ->
  open_files (snd (with_open wd path body s)) = open_files s.
Proof.
  intros Hbody Hfresh. unfold with_open, bind, finally, open.
  destruct (lookup path wd) as [[b | es] |]; cbn; try reflexivity.
  match goal with |- context [body ?fh ?s0] =>
    specialize (Hbody fh s0); destruct (body fh s0) as [r s1] end.
  cbn in *. rewrite Hbody. cbn. rewrite Nat.eqb_refl.
  now apply remove_fd_not_open.
Qed.

(** A license that the codec rejects: the read fails, and the handle is
    closed all the same before the error leaves the block. *)
Example binary_license_is_closed :
  run ascii_codec checkout_binary_license =
    (inl (UnicodeDecodeError "LICENSE"),
     mkState 5 [] (Some "# The Elements of Statistical Learning")
       [EvOpen "README.md" 3; EvRead 3; EvClose 3;
        EvOpen "LICENSE" 4; EvReadFailed 4; EvClose 4]).
Proof. reflexivity. Qed.

(** C7: whatever the checkout and the codec, and however the run ends, no
    file is left open: the table of open files is empty at the end, every
    handle the trace acquires is closed in it, and each acquisition is
    followed by its read, completed or failed, and then at once by its
    close. *)
Theorem file_handles_are_scoped decode wd :
  open_files (snd (run decode wd)) = [] /\
  live_handles [] (trace (snd (run decode wd))) = [] /\
  well_scoped (trace (snd (run decode wd))) = true.
Proof.
  pose proof (run_cases decode wd) as Hcase.
  inversion Hcase; cbn; repeat split.
Qed.

(** ** The requirement list *)

(** C5: the descriptor handed to [setup] carries the requirement list of the
    script in the order it is written, and every entry parses as a project
    name with one version constraint. *)
Theorem install_requires_ordered_and_parseable decode wd d :
  construct decode wd = inr d ->
  handed_over (trace (snd (run decode wd))) = Some d /\
  install_requires d =
    [ "numpy>=1.19.0"; "matplotlib>=3.2.2"; "scipy>=1.5.1"; "tqdm>=4.47.0";
      "flake8>=3.8.3"; "black>=19.10b0"; "scikit-learn>=0.23.1"; "pandas==1.1.0" ] /\
  parse_requirements (install_requires d) =
    Some [ mkRequirement "numpy" CmpGe "1.19.0";
           mkRequirement "matplotlib" CmpGe "3.2.2";
           mkRequirement "scipy" CmpGe "1.5.1";
           mkRequirement "tqdm" CmpGe "4.47.0";
           mkRequirement "flake8" CmpGe "3.8.3";
           mkRequirement "black" CmpGe "19.10b0";
           mkRequirement "scikit-learn" CmpGe "0.23.1";
           mkRequirement "pandas" CmpEq "1.1.0" ].
Proof.
  intros H.
  destruct (construct_inv decode wd d H) as (readme & text & Hreadme & Htext & ->).
  rewrite (run_went_through decode wd readme text Hreadme Htext).
  repeat split.
Qed.

Lemma install_requires_on_checkout :
  handed_over (trace (snd (run ascii_codec checkout)))
    = Some (setup_kwargs "MIT License" ["esl"; "esl.chapter03"]) /\
  install_requires (setup_kwargs "MIT License" ["esl"; "esl.chapter03"]) =
    [ "numpy>=1.19.0"; "matplotlib>=3.2.2"; "scipy>=1.5.1"; "tqdm>=4.47.0";
      "flake8>=3.8.3"; "black>=19.10b0"; "scikit-learn>=0.23.1"; "pandas==1.1.0" ] /\
  parse_requirements (install_requires (setup_kwargs "MIT License" ["esl"; "esl.chapter03"])) =
    Some [ mkRequirement "numpy" CmpGe "1.19.0";
           mkRequirement "matplotlib" CmpGe "3.2.2";
           mkRequirement "scipy" CmpGe "1.5.1";
           mkRequirement "tqdm" CmpGe "4.47.0";
           mkRequirement "flake8" CmpGe "3.8.3";
           mkRequirement "black" CmpGe "19.10b0";
           mkRequirement "scikit-learn" CmpGe "0.23.1";
           mkRequirement "pandas" CmpEq "1.1.0" ].
Proof.
  apply (install_requires_ordered_and_parseable ascii_codec checkout).
  reflexivity.
Defined.

(** C9: the requirement list handed to [setup] has exactly the eight entries
    of the script, in its order; [pandas] is the one entry pinned with [==],
    the seven others are lower bounds with [>=], and no entry names
    [ml-datasets]. *)
Theorem install_requires_eight_entries decode wd d :
  construct decode wd = inr d ->
  install_requires d =
    [ "numpy>=1.19.0"; "matplotlib>=3.2.2"; "scipy>=1.5.1"; "tqdm>=4.47.0";
      "flake8>=3.8.3"; "black>=19.10b0"; "scikit-learn>=0.23.1"; "pandas==1.1.0" ] /\
  length (install_requires d) = 8 /\
  (exists rs,
     parse_requirements (install_requires d) = Some rs /\
     map req_name (filter is_pinned rs) = ["pandas"] /\
     map req_name (filter is_lower_bound rs) =
       ["numpy"; "matplotlib"; "scipy"; "tqdm"; "flake8"; "black"; "scikit-learn"] /\
     existsb (String.eqb "ml-datasets") (map req_name rs) = false) /\
  existsb (String.prefix "ml-datasets") (install_requires d) = false.
Proof.
  intros H.
  destruct (construct_inv decode wd d H) as (readme & text & _ & _ & ->).
  cbn [install_requires setup_kwargs]. repeat split.
  eexists. split; [reflexivity |]. repeat split.
Qed.

Lemma install_requires_eight_entries_on_checkout :
  install_requires (setup_kwargs "MIT License" ["esl"; "esl.chapter03"]) =
    [ "numpy>=1.19.0"; "matplotlib>=3.2.2"; "scipy>=1.5.1"; "tqdm>=4.47.0";
      "flake8>=3.8.3"; "black>=19.10b0"; "scikit-learn>=0.23.1"; "pandas==1.1.0" ] /\
  length (install_requires (setup_kwargs "MIT License" ["esl"; "esl.chapter03"])) = 8 /\
  (exists rs,
     parse_requirements (install_requires (setup_kwargs "MIT License" ["esl"; "esl.chapter03"]))
       = Some rs /\
     map req_name (filter is_pinned rs) = ["pandas"] /\
     map req_name (filter is_lower_bound rs) =
       ["numpy"; "matplotlib"; "scipy"; "tqdm"; "flake8"; "black"; "scikit-learn"] /\
     existsb (String.eqb "ml-datasets") (map req_name rs) = false) /\
  existsb (String.prefix "ml-datasets")
    (install_requires (setup_kwargs "MIT License" ["esl"; "esl.chapter03"])) = false.
Proof.
  apply (install_requires_eight_entries ascii_codec checkout).
  reflexivity.
Defined.

(** ** Package discovery *)

Lemma has_marker_is_counted es :
  has_marker es = true -> 0 < length (filter is_marker_entry es).
Proof.
  unfold has_marker.
  induction es as [| [nm x] es IH]; cbn [lookup]; [discriminate |].
  destruct (String.eqb_spec package_marker nm) as [<- | Hneq].
  - destruct x as [b | sub]; [| discriminate].
    intros _. cbn [filter is_marker_entry].
    rewrite String.eqb_refl. cbn [length]. lia.
  - intros H. specialize (IH H). cbn [filter].
    destruct (is_marker_entry (nm, x)); cbn; lia.
Qed.

Lemma scan_without_markers n :
  forall dotted, marker_files n = 0 -> scan dotted n = [].
Proof.
  induction n as [b | es IH] using node_ind; intros dotted Hzero;
    [reflexivity |].
  cbn [marker_files] in Hzero. cbn [scan].
  apply Nat.eq_add_0 in Hzero as [Hhere Hbelow].
  destruct (has_marker es) eqn:Hm.
  - apply has_marker_is_counted in Hm. lia.
  - cbn [app]. clear Hm Hhere.
    induction IH as [| [nm x] es Hx _ IHes]; [reflexivity |].
    apply Nat.eq_add_0 in Hbelow as [Hx0 Hes0].
    cbn [snd] in Hx. rewrite (Hx _ Hx0). cbn [app]. now apply IHes.
Qed.

Lemma find_packages_without_markers wd :
  sub_package_markers wd = 0 -> find_packages wd = [].
Proof.
  induction wd as [| [nm x] wd IH]; cbn; [reflexivity |].
  intros H. apply Nat.eq_add_0 in H as [Hx Hwd].
  rewrite (scan_without_markers x nm Hx). cbn. now apply IH.
Qed.

(** C6: in a working directory without any sub-package marker, discovery
    comes back with the empty list and does not raise, from whatever state
    it is called in; the call is recorded with that empty result. *)
Theorem discovery_without_markers_is_empty wd s :
  sub_package_markers wd = 0 ->
  find_packages wd = [] /\
  fst (call_find_packages wd s) = inr [] /\
  trace (snd (call_find_packages wd s)) = trace s ++ [EvFindPackages []].
Proof.
  intros H. apply find_packages_without_markers in H.
  unfold call_find_packages. cbn. rewrite H. repeat split.
Qed.

Lemma discovery_on_checkout_without_packages :
  find_packages checkout_without_packages = [] /\
  fst (call_find_packages checkout_without_packages initial_state) = inr [] /\
  trace (snd (call_find_packages checkout_without_packages initial_state))
    = trace initial_state ++ [EvFindPackages []].
Proof.
  apply (discovery_without_markers_is_empty checkout_without_packages initial_state).
  reflexivity.
Defined.

Lemma find_packages_blank_documents wd :
  find_packages (blank_documents wd) = find_packages wd.
Proof.
  induction wd as [| [nm [b | es]] wd IH]; [reflexivity | |];
    cbn [blank_documents map]; fold (blank_documents wd).
  - destruct (is_document nm); cbn [find_packages scan app]; exact IH.
  - cbn [find_packages]. now rewrite IH.
Qed.

(** ** What depends on the checkout and what does not *)

(** C8: for two runs that go through on checkouts which differ in the
    contents of the readme and of the license only, the two descriptors
    agree on every field but [long_description]; the eleven fields listed
    are the literals of the script. *)
Theorem only_long_description_depends_on_documents decode wd1 wd2 d1 d2 :
  construct decode wd1 = inr d1 ->
  construct decode wd2 = inr d2 ->
  blank_documents wd1 = blank_documents wd2 ->
  (name d1 = name d2 /\
   version d1 = version d2 /\
   author d1 = author d2 /\
   author_email d1 = author_email d2 /\
   description d1 = description d2 /\
   long_description_content_type d1 = long_description_content_type d2 /\
   url d1 = url d2 /\
   install_requires d1 = install_requires d2 /\
   license d1 = license d2 /\
   classifiers d1 = classifiers d2 /\
   python_requires d1 = python_requires d2) /\
  packages d1 = packages d2 /\
  d1 = setup_kwargs (long_description d1) (packages d1) /\
  d2 = setup_kwargs (long_description d2) (packages d2).
Proof.
  intros H1 H2 Hsame.
  destruct (construct_inv decode wd1 d1 H1) as (r1 & t1 & _ & _ & ->).
  destruct (construct_inv decode wd2 d2 H2) as (r2 & t2 & _ & _ & ->).
  cbn. repeat split.
  rewrite <- (find_packages_blank_documents wd1),
          <- (find_packages_blank_documents wd2).
  now rewrite Hsame.
Qed.

Lemma only_long_description_differs_on_checkouts :
  (name (setup_kwargs "MIT License" ["esl"; "esl.chapter03"])
     = name (setup_kwargs "Apache License 2.0" ["esl"; "esl.chapter03"]) /\
   version (setup_kwargs "MIT License" ["esl"; "esl.chapter03"])
     = version (setup_kwargs "Apache License 2.0" ["esl"; "esl.chapter03"]) /\
   author (setup_kwargs "MIT License" ["esl"; "esl.chapter03"])
     = author (setup_kwargs "Apache License 2.0" ["esl"; "esl.chapter03"]) /\
   author_email (setup_kwargs "MIT License" ["esl"; "esl.chapter03"])
     = author_email (setup_kwargs "Apache License 2.0" ["esl"; "esl.chapter03"]) /\
   description (setup_kwargs "MIT License" ["esl"; "esl.chapter03"])
     = description (setup_kwargs "Apache License 2.0" ["esl"; "esl.chapter03"]) /\
   long_description_content_type (setup_kwargs "MIT License" ["esl"; "esl.chapter03"])
     = long_description_content_type (setup_kwargs "Apache License 2.0" ["esl"; "esl.chapter03"]) /\
   url (setup_kwargs "MIT License" ["esl"; "esl.chapter03"])
     = url (setup_kwargs "Apache License 2.0" ["esl"; "esl.chapter03"]) /\
   install_requires (setup_kwargs "MIT License" ["esl"; "esl.chapter03"])
     = install_requires (setup_kwargs "Apache License 2.0" ["esl"; "esl.chapter03"]) /\
   license (setup_kwargs "MIT License" ["esl"; "esl.chapter03"])
     = license (setup_kwargs "Apache License 2.0" ["esl"; "esl.chapter03"]) /\
   classifiers (setup_kwargs "MIT License" ["esl"; "esl.chapter03"])
     = classifiers (setup_kwargs "Apache License 2.0" ["esl"; "esl.chapter03"]) /\
   python_requires (setup_kwargs "MIT License" ["esl"; "esl.chapter03"])
     = python_requires (setup_kwargs "Apache License 2.0" ["esl"; "esl.chapter03"])) /\
  packages (setup_kwargs "MIT License" ["esl"; "esl.chapter03"])
    = packages (setup_kwargs "Apache License 2.0" ["esl"; "esl.chapter03"]) /\
  setup_kwargs "MIT License" ["esl"; "esl.chapter03"]
    = setup_kwargs
        (long_description (setup_kwargs "MIT License" ["esl"; "esl.chapter03"]))
        (packages (setup_kwargs "MIT License" ["esl"; "esl.chapter03"])) /\
  setup_kwargs "Apache License 2.0" ["esl"; "esl.chapter03"]
    = setup_kwargs
        (long_description (setup_kwargs "Apache License 2.0" ["esl"; "esl.chapter03"]))
        (packages (setup_kwargs "Apache License 2.0" ["esl"; "esl.chapter03"])).
Proof.
  apply (only_long_description_depends_on_documents ascii_codec
           checkout checkout_other_documents);
    reflexivity.
Defined.

(** C10: two runs on checkouts with the same readme text, the same license
    text and the same result of discovery go through with the same
    descriptor, field for field; the two runs are equal as a whole, trace
    and final state included. *)
Theorem construction_is_deterministic decode wd1 wd2 readme text :
  contents decode wd1 "README.md" = Some readme ->
  contents decode wd2 "README.md" = Some readme ->
  contents decode wd1 "LICENSE" = Some text ->
  contents decode wd2 "LICENSE" = Some text ->
  find_packages wd1 = find_packages wd2 ->
  (exists d, construct decode wd1 = inr d /\ construct decode wd2 = inr d) /\
  run decode wd1 = run decode wd2.
Proof.
  intros Hr1 Hr2 Ht1 Ht2 Hfound. split.
  - exists (setup_kwargs text (find_packages wd1)). split.
    + now apply construct_went_through with (readme := readme).
    + rewrite Hfound. now apply construct_went_through with (readme := readme).
  - rewrite (run_went_through decode wd1 readme text Hr1 Ht1),
            (run_went_through decode wd2 readme text Hr2 Ht2), Hfound.
    reflexivity.
Qed.

Lemma construction_is_deterministic_on_checkouts :
  (exists d, construct ascii_codec checkout = inr d /\
             construct ascii_codec checkout_with_extra_files = inr d) /\
  run ascii_codec checkout = run ascii_codec checkout_with_extra_files.
Proof.
  apply (construction_is_deterministic ascii_codec
           checkout checkout_with_extra_files
           "# The Elements of Statistical Learning" "MIT License");
    reflexivity.
Defined.


(** * Further properties of the script *)

Ltac run_inversion Hcase :=
  inversion Hcase as
    [ Hr Heq | es Hr Heq | b Hr Hb Heq | readme Hr Hl Heq | readme es Hr Hl Heq
    | readme b Hr Hl Hb Heq | readme text Hr Hl Heq ].

(** ** When the run goes through *)

(** X1: the run goes through, and a descriptor reaches [setup], exactly when
    both documents are readable; the readme has to be readable although its
    text is not used. *)
Theorem goes_through_iff_documents_readable decode wd :
  (fst (run decode wd) = inr tt <->
   exists readme text,
     contents decode wd "README.md" = Some readme /\
     contents decode wd "LICENSE" = Some text) /\
  ((exists d, construct decode wd = inr d) <-> fst (run decode wd) = inr tt).
Proof.
  assert (Hback : forall readme text,
             contents decode wd "README.md" = Some readme ->
             contents decode wd "LICENSE" = Some text ->
             fst (run decode wd) = inr tt).
  { intros readme text Hr Hl.
    now rewrite (run_went_through decode wd readme text Hr Hl). }
  assert (Hforth : fst (run decode wd) = inr tt ->
             exists readme text,
               contents decode wd "README.md" = Some readme /\
               contents decode wd "LICENSE" = Some text).
  { intros Hok. pose proof (run_cases decode wd) as Hcase.
    run_inversion Hcase; rewrite <- Heq in Hok; cbn in Hok; try discriminate.
    now exists readme, text. }
  split; [split |].
  - exact Hforth.
  - intros (readme & text & Hr & Hl). now apply Hback with readme text.
  - split.
    + intros (d & Hd).
      destruct (construct_inv decode wd d Hd) as (readme & text & Hr & Hl & _).
      now apply Hback with readme text.
    + intros Hok. destruct (Hforth Hok) as (readme & text & Hr & Hl).
      exists (setup_kwargs text (find_packages wd)).
      now apply construct_went_through with (readme := readme).
Qed.

(** X2: in a run that goes through, setuptools is called twice and in this
    order: [find_packages()] once, then [setup] once with the list that call
    returned as [packages]. *)
Theorem setup_receives_the_discovered_packages decode wd d :
  construct decode wd = inr d ->
  external_calls (trace (snd (run decode wd)))
    = [EvFindPackages (find_packages wd); EvSetup d] /\
  packages d = find_packages wd.
Proof.
  intros H.
  destruct (construct_inv decode wd d H) as (readme & text & Hr & Hl & ->).
  rewrite (run_went_through decode wd readme text Hr Hl). split; reflexivity.
Qed.

Lemma setup_receives_the_discovered_packages_on_checkout :
  external_calls (trace (snd (run ascii_codec checkout)))
    = [EvFindPackages (find_packages checkout);
       EvSetup (setup_kwargs "MIT License" ["esl"; "esl.chapter03"])] /\
  packages (setup_kwargs "MIT License" ["esl"; "esl.chapter03"])
    = find_packages checkout.
Proof.
  apply (setup_receives_the_discovered_packages ascii_codec checkout).
  reflexivity.
Defined.

(** ** When the run fails *)





(** X5: when the readme is not readable, for whatever reason, the run
    raises before [LICENSE] is touched: the license is never opened, the
    variable [long_description] is never bound and no file stays open. *)
Theorem unreadable_readme_stops_the_run decode wd :
  contents decode wd "README.md" = None ->
  (exists e, fst (run decode wd) = inl e) /\
  ~ In "LICENSE" (opened_paths (trace (snd (run decode wd)))) /\
  var_long_description (snd (run decode wd)) = None /\
  open_files (snd (run decode wd)) = [].
Proof.
  intros Hnone. pose proof (run_cases decode wd) as Hcase.
  run_inversion Hcase; try congruence; cbn; repeat split;
    try (eexists; reflexivity);
    cbn; intros Hin;
    repeat (destruct Hin as [Hin | Hin]; [discriminate Hin |]); exact Hin.
Qed.

Lemma unreadable_readme_on_checkout :
  (exists e, fst (run ascii_codec checkout_readme_directory) = inl e) /\
  ~ In "LICENSE" (opened_paths (trace (snd (run ascii_codec checkout_readme_directory)))) /\
  var_long_description (snd (run ascii_codec checkout_readme_directory)) = None /\
  open_files (snd (run ascii_codec checkout_readme_directory)) = [].
Proof.
  apply (unreadable_readme_stops_the_run ascii_codec checkout_readme_directory).
  reflexivity.
Defined.

(** X6: when the readme is readable and the license is not, for whatever
    reason, the run raises with [long_description] bound to the readme text:
    the first assignment has taken place, after the readme was opened, read
    and closed, and it is the last one. *)
Theorem unreadable_license_leaves_readme_text decode wd readme :
  contents decode wd "README.md" = Some readme ->
  contents decode wd "LICENSE" = None ->
  (exists e, fst (run decode wd) = inl e) /\
  var_long_description (snd (run decode wd)) = Some readme /\
  firstn 3 (trace (snd (run decode wd)))
    = [EvOpen "README.md" 3; EvRead 3; EvClose 3] /\
  open_files (snd (run decode wd)) = [].
Proof.
  intros Hreadme Hnone. pose proof (run_cases decode wd) as Hcase.
  inversion Hcase as
    [ Hr Heq | es Hr Heq | b Hr Hb Heq | first Hr Hl Heq | first es Hr Hl Heq
    | first b Hr Hl Hb Heq | first text Hr Hl Heq ];
    try congruence;
    try (apply contents_inv in Hreadme as (b0 & Hr0 & Hb0); congruence);
    cbn; repeat split; try (eexists; reflexivity); congruence.
Qed.

Lemma unreadable_license_on_checkout :
  (exists e, fst (run ascii_codec checkout_binary_license) = inl e) /\
  var_long_description (snd (run ascii_codec checkout_binary_license))
    = Some "# The Elements of Statistical Learning" /\
  firstn 3 (trace (snd (run ascii_codec checkout_binary_license)))
    = [EvOpen "README.md" 3; EvRead 3; EvClose 3] /\
  open_files (snd (run ascii_codec checkout_binary_license)) = [].
Proof.
  apply (unreadable_license_leaves_readme_text ascii_codec checkout_binary_license
           "# The Elements of Statistical Learning");
    reflexivity.
Defined.

(** ** File handles *)

(** X7: the two documents are never open at the same time: along every run
    at most one handle is held, the readme's being closed before the
    license is opened. *)
Theorem at_most_one_file_open decode wd :
  peak_open [] (trace (snd (run decode wd))) <= 1.
Proof.
  pose proof (run_cases decode wd) as Hcase.
  inversion Hcase; cbn; lia.
Qed.

Lemma fresh_fd_not_open s k :
  fds_fresh s = true -> next_fd s <= k -> find_fd k (open_files s) = None.
Proof.
  unfold fds_fresh. generalize (next_fd s) as n. intros n.
  induction (open_files s) as [| [fd f] t IH]; cbn; [reflexivity |].
  intros H Hk. apply andb_prop in H as [Hfd Ht].
  apply Nat.ltb_lt in Hfd.
  destruct (Nat.eqb_spec k fd) as [-> | _]; [lia |].
  now apply IH.
Qed.

Lemma read_then_assign_keeps_open_files decode fh s :
  open_files
    (snd ((text <- read decode fh ;; assign_long_description text) s))
  = open_files s.
Proof.
  unfold bind. pose proof (read_keeps_open_files decode fh s) as H.
  destruct (read decode fh s) as [[e | text] s1]; cbn in *; exact H.
Qed.

(** X8: a [with open(...)] block gives back the table of open files as it
    found it, and the handle it acquired is not in it, whether [open] fails,
    the body returns or the body raises; this holds for every body that
    does not open or close files itself. *)
Theorem with_block_releases_handle {A} wd path (body : nat -> M A) s :
  (forall fh s0, open_files (snd (body fh s0)) = open_files s0) ->
  fds_fresh s = true ->
  open_files (snd (with_open wd path body s)) = open_files s /\
  find_fd (next_fd s) (open_files (snd (with_open wd path body s))) = None.
Proof.
  intros Hbody Hfresh.
  assert (Hnot : find_fd (next_fd s) (open_files s) = None)
    by (apply fresh_fd_not_open; [exact Hfresh | lia]).
  assert (Hsame : open_files (snd (with_open wd path body s)) = open_files s).
  { unfold with_open, bind, finally, open.
    destruct (lookup path wd) as [[b | es] |]; cbn; try reflexivity.
    match goal with |- context [body ?fh ?s0] =>
      specialize (Hbody fh s0); destruct (body fh s0) as [r s1] end.
    cbn in *. rewrite Hbody. cbn. rewrite Nat.eqb_refl.
    now apply remove_fd_not_open. }
  split; [exact Hsame |]. rewrite Hsame. exact Hnot.
Qed.

Lemma with_block_releases_handle_in_busy_state :
  open_files
    (snd (with_open checkout "README.md"
            (fun fh => text <- read ascii_codec fh ;; assign_long_description text)
            busy_state))
  = open_files busy_state /\
  find_fd (next_fd busy_state)
    (open_files
       (snd (with_open checkout "README.md"
               (fun fh => text <- read ascii_codec fh ;; assign_long_description text)
               busy_state)))
  = None.
Proof.
  apply (with_block_releases_handle checkout "README.md"
           (fun fh => text <- read ascii_codec fh ;; assign_long_description text)
           busy_state).
  - intros fh s0. apply read_then_assign_keeps_open_files.
  - reflexivity.
Defined.


